(** * A login / signup form: the flet application of [main.py]

    The program is one screen, [AuthForm], with four text fields, a submit
    button and a clickable prompt that switches between login and signup.
    Two callbacks carry all of its behaviour: [validate_and_submit] (the
    submit button's [on_click]) and [toggle_mode] (the prompt's [on_click]).

    The embedding keeps the shape of the Python: the form is a record of
    widgets, the callbacks are statements over that record which may return
    early and which call out to the flet runtime ([page.show_snack_bar],
    [self.update]); those calls are recorded as a trace of effects. *)

From Stdlib Require Import String Ascii List Bool Arith Lia.
Import ListNotations.
Local Open Scope string_scope.
Local Open Scope list_scope.

(** ** Python values *)

(** Truth value of a [str]: only the empty string is falsy. *)
Definition truthy (s : string) : bool :=
  match s with
  | EmptyString => false
  | String _ _ => true
  end.

(** [a != b] on [str]. *)
Definition str_ne (a b : string) : bool := negb (String.eqb a b).

(** ** flet colour names used by the program ([ft.colors.*]) *)

Module ft_colors.
Definition BLUE : string := "blue".
Definition WHITE : string := "white".
Definition BLUE_GREY_200 : string := "bluegrey200".
Definition RED_400 : string := "red400".
End ft_colors.

(** ** [ThemeColors] (dataclass, lines 5-13) *)

Module ThemeColors.
Record t : Type := mk {
  primary : string;
  background : string;
  card_background : string;
  text : string;
  text_secondary : string;
  error : string
}.

(** [ThemeColors()]: every attribute at its default. *)
Definition new : t :=
  {| primary := ft_colors.BLUE;
     background := "#1a1a1a";
     card_background := "#2d2d2d";
     text := ft_colors.WHITE;
     text_secondary := ft_colors.BLUE_GREY_200;
     error := ft_colors.RED_400 |}.
End ThemeColors.

(** [self.colors] is assigned once, in [__init__], to [ThemeColors()] and is
    never written again: it is this constant. *)
Definition colors : ThemeColors.t := ThemeColors.new.

(** ** Widgets

    Only the attributes the program reads or writes after construction, and
    the ones its constructor calls choose per widget, are kept; the fixed
    styling ([width], [padding], [border_radius], ...) is the same for every
    widget of a kind and is never touched again. *)

(** [CustomTextField] (lines 15-31), a [ft.TextField]. *)
Module TextField.
Record t : Type := mk {
  label : string;
  password : bool;
  can_reveal_password : bool;
  visible : bool;
  value : string
}.

(** [CustomTextField(label, password=False, visible=True)]; a new text
    field holds the empty string. *)
Definition new (label : string) (password : bool) (visible : bool) : t :=
  {| label := label;
     password := password;
     can_reveal_password := password;
     visible := visible;
     value := "" |}.

Definition set_visible (b : bool) (f : t) : t :=
  {| label := label f;
     password := password f;
     can_reveal_password := can_reveal_password f;
     visible := b;
     value := value f |}.

Definition set_value (v : string) (f : t) : t :=
  {| label := label f;
     password := password f;
     can_reveal_password := can_reveal_password f;
     visible := visible f;
     value := v |}.
End TextField.

(** [ft.Text]. *)
Module Text.
Record t : Type := mk {
  value : string;
  color : string
}.

Definition set_value (v : string) (x : t) : t :=
  {| value := v; color := color x |}.
End Text.

(** [ft.ElevatedButton]. *)
Module ElevatedButton.
Record t : Type := mk {
  text : string;
  color : string;
  bgcolor : string
}.

Definition set_text (v : string) (b : t) : t :=
  {| text := v; color := color b; bgcolor := bgcolor b |}.
End ElevatedButton.

(** [ft.SnackBar]. *)
Module SnackBar.
Record t : Type := mk {
  content : Text.t;
  bgcolor : string
}.
End SnackBar.

(** ** [AuthForm] (lines 33-156)

    [form_container] only holds references to the widgets below (the same
    objects, not copies), so the widget attributes live here. *)
Record AuthForm : Type := mkAuthForm {
  is_login : bool;
  name_field : TextField.t;
  email_field : TextField.t;
  pass_field : TextField.t;
  confirm_pass_field : TextField.t;
  submit_button : ElevatedButton.t;
  toggle_text : Text.t
}.

Definition set_is_login (b : bool) (self : AuthForm) : AuthForm :=
  mkAuthForm b (name_field self) (email_field self) (pass_field self)
             (confirm_pass_field self) (submit_button self) (toggle_text self).

Definition set_name_field (f : TextField.t) (self : AuthForm) : AuthForm :=
  mkAuthForm (is_login self) f (email_field self) (pass_field self)
             (confirm_pass_field self) (submit_button self) (toggle_text self).

Definition set_email_field (f : TextField.t) (self : AuthForm) : AuthForm :=
  mkAuthForm (is_login self) (name_field self) f (pass_field self)
             (confirm_pass_field self) (submit_button self) (toggle_text self).

Definition set_pass_field (f : TextField.t) (self : AuthForm) : AuthForm :=
  mkAuthForm (is_login self) (name_field self) (email_field self) f
             (confirm_pass_field self) (submit_button self) (toggle_text self).

Definition set_confirm_pass_field (f : TextField.t) (self : AuthForm) : AuthForm :=
  mkAuthForm (is_login self) (name_field self) (email_field self) (pass_field self)
             f (submit_button self) (toggle_text self).

Definition set_submit_button (b : ElevatedButton.t) (self : AuthForm) : AuthForm :=
  mkAuthForm (is_login self) (name_field self) (email_field self) (pass_field self)
             (confirm_pass_field self) b (toggle_text self).

Definition set_toggle_text (x : Text.t) (self : AuthForm) : AuthForm :=
  mkAuthForm (is_login self) (name_field self) (email_field self) (pass_field self)
             (confirm_pass_field self) (submit_button self) x.

(** ** Statements

    A method body runs on [self], may change it, may call out to the flet
    runtime, and either falls through to the next statement or returns. *)

(** Calls into the flet runtime. *)
Inductive Effect : Type :=
| ShowSnackBar (sb : SnackBar.t)   (* self.page.show_snack_bar(sb) *)
| Update.                          (* self.update() *)

Inductive Flow : Type := Fallthrough | Returned.

Definition Stmt : Type := AuthForm -> Flow * AuthForm * list Effect.

Definition pass : Stmt := fun self => (Fallthrough, self, []).

Definition return_ : Stmt := fun self => (Returned, self, []).

Definition perform (e : Effect) : Stmt := fun self => (Fallthrough, self, [e]).

Definition assign (f : AuthForm -> AuthForm) : Stmt :=
  fun self => (Fallthrough, f self, []).

Definition seq (s1 s2 : Stmt) : Stmt :=
  fun self =>
    match s1 self with
    | (Returned, self1, t1) => (Returned, self1, t1)
    | (Fallthrough, self1, t1) =>
        let '(fl, self2, t2) := s2 self1 in (fl, self2, t1 ++ t2)
    end.

Definition if_ (cond : AuthForm -> bool) (body : Stmt) : Stmt :=
  fun self => if cond self then body self else pass self.

(** A call of another method of [self]: the callee's [return] ends the
    callee, not the caller. *)
Definition call (callee : Stmt) : Stmt :=
  fun self => let '(_, self1, t1) := callee self in (Fallthrough, self1, t1).

(** A local variable bound to the value of an expression over [self]. *)
Definition let_ {A : Type} (e : AuthForm -> A) (k : A -> Stmt) : Stmt :=
  fun self => k (e self) self.

Declare Scope stmt_scope.
Delimit Scope stmt_scope with stmt.
Bind Scope stmt_scope with Stmt.
Notation "s1 ;; s2" := (seq s1 s2)
  (at level 61, right associativity) : stmt_scope.

Definition flow_of (r : Flow * AuthForm * list Effect) : Flow := fst (fst r).
Definition state_of (r : Flow * AuthForm * list Effect) : AuthForm := snd (fst r).
Definition effects_of (r : Flow * AuthForm * list Effect) : list Effect := snd r.

(** ** The methods of [AuthForm] *)

(** [initialize_fields] (lines 41-101): builds every widget, leaves
    [is_login] alone. *)
Definition initialize_fields (self : AuthForm) : AuthForm :=
  {| is_login := is_login self;
     name_field := TextField.new "Username" false true;
     email_field := TextField.new "Email" false false;
     pass_field := TextField.new "Password" true true;
     confirm_pass_field := TextField.new "Confirm Password" true false;
     submit_button :=
       {| ElevatedButton.text := "Login";
          ElevatedButton.color := ThemeColors.text colors;
          ElevatedButton.bgcolor := ThemeColors.primary colors |};
     toggle_text :=
       {| Text.value := "New here? Sign Up!";
          Text.color := ThemeColors.primary colors |} |}.

(** [__init__] (lines 35-39): [is_login = True], then [initialize_fields].
    The widgets of the record it starts from are overwritten at once. *)
Definition AuthForm_init : AuthForm :=
  let blank := TextField.new "" false true in
  initialize_fields
    {| is_login := true;
       name_field := blank;
       email_field := blank;
       pass_field := blank;
       confirm_pass_field := blank;
       submit_button := ElevatedButton.mk "" "" "";
       toggle_text := Text.mk "" "" |}.

(** [show_error] (lines 123-130). *)
Definition show_error (message : string) : Stmt :=
  perform (ShowSnackBar
    {| SnackBar.content :=
         {| Text.value := message; Text.color := ThemeColors.error colors |};
       SnackBar.bgcolor := ThemeColors.card_background colors |}).

(** [show_success] (lines 132-139). *)
Definition show_success (message : string) : Stmt :=
  perform (ShowSnackBar
    {| SnackBar.content :=
         {| Text.value := message; Text.color := ThemeColors.text colors |};
       SnackBar.bgcolor := ThemeColors.primary colors |}).

(** [validate_and_submit] (lines 103-121). *)
Definition validate_and_submit : Stmt :=
  (if_ (fun self => negb (truthy (TextField.value (name_field self))))
     (call (show_error "Please enter username") ;; return_) ;;
   if_ (fun self => negb (truthy (TextField.value (pass_field self))))
     (call (show_error "Please enter password") ;; return_) ;;
   if_ (fun self => negb (is_login self))
     (if_ (fun self => negb (truthy (TextField.value (email_field self))))
        (call (show_error "Please enter email") ;; return_) ;;
      if_ (fun self => str_ne (TextField.value (pass_field self))
                              (TextField.value (confirm_pass_field self)))
        (call (show_error "Passwords don't match!") ;; return_)) ;;
   let_ (fun self => if is_login self then "Login" else "Signup")
     (fun action => call (show_success (action ++ " successful!"))))%stmt.

(** [toggle_mode] (lines 141-153). *)
Definition toggle_mode : Stmt :=
  (assign (fun self => set_is_login (negb (is_login self)) self) ;;
   assign (fun self =>
     set_confirm_pass_field
       (TextField.set_visible (negb (is_login self)) (confirm_pass_field self)) self) ;;
   assign (fun self =>
     set_email_field
       (TextField.set_visible (negb (is_login self)) (email_field self)) self) ;;
   assign (fun self =>
     set_submit_button
       (ElevatedButton.set_text (if is_login self then "Login" else "Sign Up")
          (submit_button self)) self) ;;
   assign (fun self =>
     set_toggle_text
       (Text.set_value
          (if is_login self then "New here? Sign Up!"
           else "Already have an account? Login!")
          (toggle_text self)) self) ;;
   perform Update)%stmt.

(** ** The form as a state machine

    The vocabulary of the specification, read off the program: the mode is
    [is_login], the field set is the [value] of the four text fields, a
    notification is a snack bar in one of the two stylings of [show_error]
    and [show_success]. *)

Inductive Mode : Type := Login | Signup.

Definition mode (self : AuthForm) : Mode :=
  if is_login self then Login else Signup.

Record FieldSet : Type := mkFieldSet {
  username : string;
  email : string;
  password : string;
  confirmPassword : string
}.

Definition fields (self : AuthForm) : FieldSet :=
  {| username := TextField.value (name_field self);
     email := TextField.value (email_field self);
     password := TextField.value (pass_field self);
     confirmPassword := TextField.value (confirm_pass_field self) |}.

Inductive FieldName : Type := Username | Email | Password | ConfirmPassword.

(** Modelled from the spec: [FieldSet.set(fieldName, value)], which
    "overwrites the corresponding value with no validation".  The program has
    no code for it: the flet runtime writes what the user types into the
    [value] attribute of the text field. *)
Definition set_field (n : FieldName) (v : string) (self : AuthForm) : AuthForm :=
  match n with
  | Username => set_name_field (TextField.set_value v (name_field self)) self
  | Email => set_email_field (TextField.set_value v (email_field self)) self
  | Password => set_pass_field (TextField.set_value v (pass_field self)) self
  | ConfirmPassword =>
      set_confirm_pass_field (TextField.set_value v (confirm_pass_field self)) self
  end.

Definition set_fields (f : FieldSet) (self : AuthForm) : AuthForm :=
  set_field ConfirmPassword (confirmPassword f)
    (set_field Password (password f)
       (set_field Email (email f)
          (set_field Username (username f) self))).

Inductive ValidationResult : Type :=
| Ok
| Error (message : string).

Module Notification.
Inductive t : Type :=
| Error (text : string)
| Success (text : string).
End Notification.

(** A snack bar is an error notification when it has the styling of
    [show_error] and a success notification when it has that of
    [show_success]. *)
Definition notification_of (sb : SnackBar.t) : option Notification.t :=
  let c := Text.color (SnackBar.content sb) in
  let bg := SnackBar.bgcolor sb in
  let msg := Text.value (SnackBar.content sb) in
  if String.eqb c (ThemeColors.error colors)
     && String.eqb bg (ThemeColors.card_background colors)
  then Some (Notification.Error msg)
  else if String.eqb c (ThemeColors.text colors)
          && String.eqb bg (ThemeColors.primary colors)
  then Some (Notification.Success msg)
  else None.

(** What one runtime call shows to the user, if it is a notification. *)
Definition shown (e : Effect) : option Notification.t :=
  match e with
  | ShowSnackBar sb => notification_of sb
  | Update => None
  end.

Fixpoint error_messages (t : list Effect) : list string :=
  match t with
  | [] => []
  | e :: t' =>
      match shown e with
      | Some (Notification.Error msg) => msg :: error_messages t'
      | _ => error_messages t'
      end
  end.

(** The two transitions, as state transformers and as traces. *)
Definition toggle (self : AuthForm) : AuthForm := state_of (toggle_mode self).

Definition submit (self : AuthForm) : AuthForm := state_of (validate_and_submit self).

Definition emitted (self : AuthForm) : list Effect :=
  effects_of (validate_and_submit self).

(** The program has no validator of its own: the verdict is what the guards
    of [validate_and_submit] (lines 105-118) decide, and it is observed on a
    run of the handler as the error it shows, if any. *)
Definition validation_result (self : AuthForm) : ValidationResult :=
  match error_messages (emitted self) with
  | msg :: _ => Error msg
  | [] => Ok
  end.

(** A form the program can be in, with the given mode and field values: a
    new form, toggled once for signup, then filled in. *)
Definition form_in (m : Mode) (f : FieldSet) : AuthForm :=
  set_fields f
    match m with
    | Login => AuthForm_init
    | Signup => toggle AuthForm_init
    end.

Definition validate (m : Mode) (f : FieldSet) : ValidationResult :=
  validation_result (form_in m f).

Definition actionLabel (m : Mode) : string :=
  match m with Login => "Login" | Signup => "Signup" end.

(** Inbound events of the screen and the reaction of the form to each. *)
Inductive UIEvent : Type :=
| onFieldChange (n : FieldName) (v : string)
| onSubmitClick
| onToggleClick.

Definition handle (ev : UIEvent) (self : AuthForm) : AuthForm :=
  match ev with
  | onFieldChange n v => set_field n v self
  | onSubmitClick => submit self
  | onToggleClick => toggle self
  end.

Inductive Reachable : AuthForm -> Prop :=
| Reachable_init : Reachable AuthForm_init
| Reachable_step : forall ev self, Reachable self -> Reachable (handle ev self).

(** Email and confirm-password are shown exactly in signup mode. *)
Definition visible_iff_signup (self : AuthForm) : Prop :=
  (TextField.visible (email_field self) = true <-> mode self = Signup) /\
  (TextField.visible (confirm_pass_field self) = true <-> mode self = Signup).

Definition submit_label (m : Mode) : string :=
  match m with Login => "Login" | Signup => "Sign Up" end.

Definition toggle_prompt (m : Mode) : string :=
  match m with
  | Login => "New here? Sign Up!"
  | Signup => "Already have an account? Login!"
  end.

(** The button and the prompt carry the texts of the current mode. *)
Definition labels_match (self : AuthForm) : Prop :=
  ElevatedButton.text (submit_button self) = submit_label (mode self) /\
  Text.value (toggle_text self) = toggle_prompt (mode self).

(** ** The validation rules in the words of the specification (section 4.2)

    Kept apart from the program: [validate] above is read off
    [validate_and_submit], this is the rule list it is compared with. *)
Definition rules_in_order (m : Mode) (f : FieldSet) : ValidationResult :=
  if String.eqb (username f) "" then Error "Please enter username"
  else if String.eqb (password f) "" then Error "Please enter password"
  else
    match m with
    | Login => Ok
    | Signup =>
        if String.eqb (email f) "" then Error "Please enter email"
        else if negb (String.eqb (password f) (confirmPassword f))
             then Error "Passwords don't match!"
             else Ok
    end.

(** Every verdict is [Ok] or one of the four messages of the handler. *)
Definition known_verdict (r : ValidationResult) : Prop :=
  r = Ok \/
  r = Error "Please enter username" \/
  r = Error "Please enter password" \/
  r = Error "Please enter email" \/
  r = Error "Passwords don't match!".

(** What a run of the submit handler does, by verdict of the rule list:
    the form is untouched, one snack bar is shown, and the handler returns
    early exactly on an error. *)
Definition submit_run (self : AuthForm) : Flow * AuthForm * list Effect :=
  match rules_in_order (mode self) (fields self) with
  | Error msg => (Returned, self, effects_of (show_error msg self))
  | Ok =>
      (Fallthrough, self,
       effects_of (show_success (actionLabel (mode self) ++ " successful!") self))
  end.

(** ** The widget tree and the application *)

(** The controls of [form_container] (lines 72-91), in the order of the
    [controls] list.  The tree holds the widgets of the form themselves, and
    the program only ever writes attributes of those widgets (it never
    rebinds [self.name_field] and the like), so the tree of a form is read
    from the form.  [on_click] is the bound method the control was given. *)
Inductive Control : Type :=
| Heading (x : Text.t)
| Field (f : TextField.t)
| Button (b : ElevatedButton.t) (on_click : Stmt)
| Prompt (content : Text.t) (on_click : Stmt).

Definition form_container (self : AuthForm) : list Control :=
  [ Heading {| Text.value := "Welcome!"; Text.color := ThemeColors.primary colors |};
    Field (name_field self);
    Field (email_field self);
    Field (pass_field self);
    Field (confirm_pass_field self);
    Button (submit_button self) validate_and_submit;
    Prompt (toggle_text self) toggle_mode ].

(** [build] (lines 155-156). *)
Definition build (self : AuthForm) : list Control := form_container self.

(** [visible] of a control: the program sets it on text fields only, every
    other control keeps flet's default, [True]. *)
Definition control_visible (c : Control) : bool :=
  match c with
  | Field f => TextField.visible f
  | _ => true
  end.

(** The text a control shows: the label of a text field, the text of the
    others. *)
Definition caption (c : Control) : string :=
  match c with
  | Heading x => Text.value x
  | Field f => TextField.label f
  | Button b _ => ElevatedButton.text b
  | Prompt x _ => Text.value x
  end.

(** What the user sees, top to bottom. *)
Definition screen (self : AuthForm) : list string :=
  map caption (filter control_visible (build self)).

(** The two screens: the captions of login mode and of signup mode. *)
Definition layout (m : Mode) : list string :=
  match m with
  | Login =>
      ["Welcome!"; "Username"; "Password"; "Login"; "New here? Sign Up!"]
  | Signup =>
      ["Welcome!"; "Username"; "Email"; "Password"; "Confirm Password";
       "Sign Up"; "Already have an account? Login!"]
  end.

(** A click runs the [on_click] of the control, if it has one. *)
Definition click (c : Control) : Stmt :=
  match c with
  | Button _ h => call h
  | Prompt _ h => call h
  | _ => pass
  end.

(** The reaction to an event as a statement, with its runtime calls. *)
Definition react (ev : UIEvent) : Stmt :=
  match ev with
  | onFieldChange n v => assign (set_field n v)
  | onSubmitClick => call validate_and_submit
  | onToggleClick => call toggle_mode
  end.

(** Events are handled one after the other, each to its end. *)
Fixpoint run_events (evs : list UIEvent) (self : AuthForm)
  : AuthForm * list Effect :=
  match evs with
  | [] => (self, [])
  | ev :: rest =>
      let '(_, self1, t1) := react ev self in
      let '(self2, t2) := run_events rest self1 in
      (self2, t1 ++ t2)
  end.

Definition is_toggle_click (ev : UIEvent) : bool :=
  match ev with onToggleClick => true | _ => false end.

Definition is_submit_click (ev : UIEvent) : bool :=
  match ev with onSubmitClick => true | _ => false end.

Definition is_field_change (ev : UIEvent) : bool :=
  match ev with onFieldChange _ _ => true | _ => false end.

Definition is_snack_bar (e : Effect) : bool :=
  match e with ShowSnackBar _ => true | Update => false end.

Definition is_update (e : Effect) : bool :=
  match e with ShowSnackBar _ => false | Update => true end.

Definition other_mode (m : Mode) : Mode :=
  match m with Login => Signup | Signup => Login end.

(** flet enumerations used by [AuthApp.main]. *)
Inductive MainAxisAlignment : Type :=
| MainAxis_START | MainAxis_END | MainAxis_CENTER
| MainAxis_SPACE_BETWEEN | MainAxis_SPACE_AROUND | MainAxis_SPACE_EVENLY.

Inductive CrossAxisAlignment : Type :=
| CrossAxis_START | CrossAxis_END | CrossAxis_CENTER
| CrossAxis_STRETCH | CrossAxis_BASELINE.

Inductive ThemeMode : Type := ThemeMode_SYSTEM | ThemeMode_LIGHT | ThemeMode_DARK.

(** [ft.Page]: the attributes [AuthApp.main] writes, and the controls added
    to the page. *)
Module Page.
Record t : Type := mk {
  title : string;
  window_width : nat;
  window_height : nat;
  window_resizable : bool;
  bgcolor : string;
  vertical_alignment : MainAxisAlignment;
  horizontal_alignment : CrossAxisAlignment;
  theme_mode : ThemeMode;
  padding : nat;
  controls : list AuthForm
}.
End Page.

(** [AuthApp] (lines 158-177). *)
Module AuthApp.
Record t : Type := mk { colors : ThemeColors.t }.

(** [__init__] (lines 160-161). *)
Definition new : t := {| colors := ThemeColors.new |}.

(** [main] (lines 163-177): configures the page, then adds a new form. *)
Definition main (self : t) (page : Page.t) : Page.t :=
  let auth_form := AuthForm_init in
  {| Page.title := "Mukund";
     Page.window_width := 390;
     Page.window_height := 884;
     Page.window_resizable := false;
     Page.bgcolor := ThemeColors.background (colors self);
     Page.vertical_alignment := MainAxis_CENTER;
     Page.horizontal_alignment := CrossAxis_CENTER;
     Page.theme_mode := ThemeMode_DARK;
     Page.padding := 0;
     Page.controls := Page.controls page ++ [auth_form] |}.
End AuthApp.

(** ** The validation lines on their own, and the page

    [validate_and_submit] is its guards (lines 105-118) followed by the
    success lines (120-121). *)
Definition validation_guards : Stmt :=
  (if_ (fun self => negb (truthy (TextField.value (name_field self))))
     (call (show_error "Please enter username") ;; return_) ;;
   if_ (fun self => negb (truthy (TextField.value (pass_field self))))
     (call (show_error "Please enter password") ;; return_) ;;
   if_ (fun self => negb (is_login self))
     (if_ (fun self => negb (truthy (TextField.value (email_field self))))
        (call (show_error "Please enter email") ;; return_) ;;
      if_ (fun self => str_ne (TextField.value (pass_field self))
                              (TextField.value (confirm_pass_field self)))
        (call (show_error "Passwords don't match!") ;; return_)))%stmt.

Definition success_lines : Stmt :=
  let_ (fun self => if is_login self then "Login" else "Signup")
    (fun action => call (show_success (action ++ " successful!"))).

(** A statement performs no I/O on a form when its run there makes no call
    to the runtime. *)
Definition performs_no_io (s : Stmt) (self : AuthForm) : Prop :=
  effects_of (s self) = [].

(** [self.page] is [None] until the form has been added to a page; the
    handlers are callbacks of controls on a page and run with [self.page]
    set. *)
Inductive PageRef : Type := NoPage | OnPage.

(** How a run ends: normally, or with a Python exception. *)
Inductive Outcome : Type :=
| Completed (r : Flow * AuthForm * list Effect)
| Raised.

(** The only operation of the handlers that can raise is a call to the
    runtime, which goes through the page: without one, the first such call
    raises; with one, the run completes. *)
Definition attempt (pg : PageRef) (s : Stmt) (self : AuthForm) : Outcome :=
  match pg with
  | OnPage => Completed (s self)
  | NoPage =>
      match effects_of (s self) with
      | [] => Completed (s self)
      | _ :: _ => Raised
      end
  end.

(** ** Running the handlers *)

Example run_login_bob :
  emitted (form_in Login (mkFieldSet "bob" "" "x" "")) =
  [ShowSnackBar (SnackBar.mk (Text.mk "Login successful!" "white") "blue")].
Proof. reflexivity. Qed.

Example run_signup_no_email :
  validate Signup (mkFieldSet "bob" "" "x" "x") = Error "Please enter email".
Proof. reflexivity. Qed.

Example run_signup_mismatch :
  validate Signup (mkFieldSet "bob" "b@x" "x" "y") = Error "Passwords don't match!".
Proof. reflexivity. Qed.

Example run_toggle_init :
  toggle_mode AuthForm_init =
  (Fallthrough,
   {| is_login := false;
      name_field := TextField.mk "Username" false false true "";
      email_field := TextField.mk "Email" false false true "";
      pass_field := TextField.mk "Password" true true true "";
      confirm_pass_field := TextField.mk "Confirm Password" true true true "";
      submit_button := ElevatedButton.mk "Sign Up" "white" "blue";
      toggle_text := Text.mk "Already have an account? Login!" "blue" |},
   [Update]).
Proof. reflexivity. Qed.

(** ** Basic facts *)

Lemma truthy_eqb (s : string) : truthy s = negb (String.eqb s "").
Proof. destruct s; reflexivity. Qed.

Lemma eqb_empty_iff (s : string) : String.eqb s "" = true <-> s = "".
Proof. apply String.eqb_eq. Qed.

Lemma eqb_empty_false (s : string) : s <> "" -> String.eqb s "" = false.
Proof. intros H. apply String.eqb_neq. exact H. Qed.

Lemma mode_Login (self : AuthForm) : mode self = Login <-> is_login self = true.
Proof. unfold mode. destruct (is_login self); split; congruence. Qed.

Lemma mode_Signup (self : AuthForm) : mode self = Signup <-> is_login self = false.
Proof. unfold mode. destruct (is_login self); split; congruence. Qed.

Lemma notification_of_error (msg : string) :
  notification_of
    (SnackBar.mk (Text.mk msg (ThemeColors.error colors))
                 (ThemeColors.card_background colors))
  = Some (Notification.Error msg).
Proof. reflexivity. Qed.

Lemma notification_of_success (msg : string) :
  notification_of
    (SnackBar.mk (Text.mk msg (ThemeColors.text colors))
                 (ThemeColors.primary colors))
  = Some (Notification.Success msg).
Proof. reflexivity. Qed.

Lemma validate_and_submit_run (self : AuthForm) :
  validate_and_submit self = submit_run self.
Proof.
  destruct self as [il [nl np nr nv n] [el ep er ev e] [pl pp pr pv p]
                       [cl cp cr cv c] sb tt].
  unfold submit_run, rules_in_order, mode, fields, validate_and_submit.
  unfold seq, if_, let_, call, return_, pass, str_ne. cbn [is_login name_field
    email_field pass_field confirm_pass_field TextField.value username email
    password confirmPassword].
  destruct n as [|a n]; [reflexivity|].
  destruct p as [|b p]; [reflexivity|].
  destruct il; [reflexivity|].
  destruct e as [|d e]; [reflexivity|].
  destruct c as [|b' c]; [reflexivity|].
  cbn. destruct (Ascii.eqb b b'); [|reflexivity].
  destruct (String.eqb p c); reflexivity.
Qed.

Lemma emitted_run (self : AuthForm) :
  emitted self =
  match rules_in_order (mode self) (fields self) with
  | Error msg => effects_of (show_error msg self)
  | Ok => effects_of (show_success (actionLabel (mode self) ++ " successful!") self)
  end.
Proof.
  unfold emitted. rewrite validate_and_submit_run. unfold submit_run.
  destruct (rules_in_order (mode self) (fields self)); reflexivity.
Qed.

Lemma submit_id (self : AuthForm) : submit self = self.
Proof.
  unfold submit. rewrite validate_and_submit_run. unfold submit_run.
  destruct (rules_in_order (mode self) (fields self)); reflexivity.
Qed.

Lemma validation_result_rules (self : AuthForm) :
  validation_result self = rules_in_order (mode self) (fields self).
Proof.
  unfold validation_result. rewrite emitted_run.
  destruct (rules_in_order (mode self) (fields self)); reflexivity.
Qed.

Lemma mode_form_in (m : Mode) (f : FieldSet) : mode (form_in m f) = m.
Proof. destruct m; reflexivity. Qed.

Lemma fields_form_in (m : Mode) (f : FieldSet) : fields (form_in m f) = f.
Proof. destruct m, f; reflexivity. Qed.

Lemma validate_rules (m : Mode) (f : FieldSet) :
  validate m f = rules_in_order m f.
Proof.
  unfold validate. rewrite validation_result_rules.
  now rewrite mode_form_in, fields_form_in.
Qed.

Lemma rules_in_order_known (m : Mode) (f : FieldSet) :
  known_verdict (rules_in_order m f).
Proof.
  unfold known_verdict, rules_in_order.
  destruct (String.eqb (username f) ""); [tauto|].
  destruct (String.eqb (password f) ""); [tauto|].
  destruct m; [tauto|].
  destruct (String.eqb (email f) ""); [tauto|].
  destruct (String.eqb (password f) (confirmPassword f)); simpl; tauto.
Qed.

(** ** Validation *)

(** C1. For every mode and field set, [validate] applies its rules in this
    order and stops at the first that fails: empty username, then empty
    password, then (signup only) empty email, then (signup only) password
    different from its confirmation; otherwise it accepts.  A run of the
    handler on any form shows exactly one message; when a rule fails it is
    the error of the first failing rule and no second error follows it, and
    when the form is accepted it is no error at all. *)
Theorem validate_first_failure_wins (m : Mode) (f : FieldSet) :
  validate m f =
    (if String.eqb (username f) "" then Error "Please enter username"
     else if String.eqb (password f) "" then Error "Please enter password"
     else match m with
          | Login => Ok
          | Signup =>
              if String.eqb (email f) "" then Error "Please enter email"
              else if negb (String.eqb (password f) (confirmPassword f))
                   then Error "Passwords don't match!"
                   else Ok
          end)
  /\ (forall self : AuthForm,
        length (emitted self) = 1
        /\ error_messages (emitted self) =
           match validate (mode self) (fields self) with
           | Error msg => [msg]
           | Ok => []
           end).
Proof.
  split.
  - apply validate_rules.
  - intros self. rewrite validate_rules, emitted_run.
    destruct (rules_in_order (mode self) (fields self)); split; reflexivity.
Qed.

(** C2. On every form, [submit] makes exactly one call to the runtime, and
    it shows one notification, fixed by the rules applied to the mode and
    the four values of the form: when a rule fails, the error snack bar with
    the message of the first failing rule, and then the handler returns;
    when none fails, the success snack bar with "Login" or "Signup" followed
    by " successful!", after which the handler's body ends.  The verdict of
    [validate] is that of the rules, so the same holds in its terms. *)
Theorem submit_emits_exactly_one_notification (self : AuthForm) :
  emitted self =
    [ShowSnackBar
       match rules_in_order (mode self) (fields self) with
       | Error msg =>
           {| SnackBar.content :=
                {| Text.value := msg; Text.color := ThemeColors.error colors |};
              SnackBar.bgcolor := ThemeColors.card_background colors |}
       | Ok =>
           {| SnackBar.content :=
                {| Text.value :=
                     match mode self with Login => "Login" | Signup => "Signup" end
                     ++ " successful!";
                   Text.color := ThemeColors.text colors |};
              SnackBar.bgcolor := ThemeColors.primary colors |}
       end]
  /\ map shown (emitted self) =
       match rules_in_order (mode self) (fields self) with
       | Error msg => [Some (Notification.Error msg)]
       | Ok =>
           [Some (Notification.Success
                    (match mode self with Login => "Login" | Signup => "Signup" end
                     ++ " successful!"))]
       end
  /\ flow_of (validate_and_submit self) =
       match rules_in_order (mode self) (fields self) with
       | Error _ => Returned
       | Ok => Fallthrough
       end
  /\ validate (mode self) (fields self) = rules_in_order (mode self) (fields self)
  /\ map shown (emitted self) =
       match validate (mode self) (fields self) with
       | Error msg => [Some (Notification.Error msg)]
       | Ok =>
           [Some (Notification.Success
                    (match mode self with Login => "Login" | Signup => "Signup" end
                     ++ " successful!"))]
       end
  /\ flow_of (validate_and_submit self) =
       match validate (mode self) (fields self) with
       | Error _ => Returned
       | Ok => Fallthrough
       end
  /\ (forall e c : string,
        map shown (emitted (form_in Login (mkFieldSet "bob" e "x" c))) =
        [Some (Notification.Success "Login successful!")])
  /\ map shown (emitted (form_in Signup (mkFieldSet "bob" "" "x" "x"))) =
       [Some (Notification.Error "Please enter email")]
  /\ (forall f : FieldSet,
        map shown (emitted (form_in Login (mkFieldSet "" (email f) (password f)
                                             (confirmPassword f)))) =
        [Some (Notification.Error "Please enter username")]).
Proof.
  assert (Hflow : flow_of (validate_and_submit self) =
                  match rules_in_order (mode self) (fields self) with
                  | Error _ => Returned
                  | Ok => Fallthrough
                  end).
  { rewrite validate_and_submit_run. unfold submit_run.
    destruct (rules_in_order (mode self) (fields self)); reflexivity. }
  assert (Hshown : map shown (emitted self) =
       match rules_in_order (mode self) (fields self) with
       | Error msg => [Some (Notification.Error msg)]
       | Ok =>
           [Some (Notification.Success
                    (match mode self with Login => "Login" | Signup => "Signup" end
                     ++ " successful!"))]
       end).
  { rewrite emitted_run.
    destruct (rules_in_order (mode self) (fields self)); [|reflexivity].
    destruct (mode self); reflexivity. }
  split; [|split; [|split; [|split; [|split; [|split; [|split; [|split]]]]]]].
  - rewrite emitted_run.
    destruct (rules_in_order (mode self) (fields self)); [|reflexivity].
    destruct (mode self); reflexivity.
  - exact Hshown.
  - exact Hflow.
  - apply validate_rules.
  - rewrite validate_rules. exact Hshown.
  - rewrite validate_rules. exact Hflow.
  - intros e c. reflexivity.
  - reflexivity.
  - intros f. reflexivity.
Qed.

(** C3. In login mode a form with a username and a password is accepted; in
    signup mode a form with a username, an email and a password that equals
    its confirmation is accepted. *)
Theorem validate_accepts_complete_forms (m : Mode) (f : FieldSet) :
  username f <> "" ->
  password f <> "" ->
  (m = Signup -> email f <> "" /\ password f = confirmPassword f) ->
  validate m f = Ok.
Proof.
  intros Hu Hp Hs. rewrite validate_rules. unfold rules_in_order.
  rewrite (eqb_empty_false _ Hu), (eqb_empty_false _ Hp).
  destruct m; [reflexivity|].
  destruct (Hs eq_refl) as [He Hc].
  rewrite (eqb_empty_false _ He).
  apply String.eqb_eq in Hc. rewrite Hc. reflexivity.
Qed.

Lemma validate_accepts_complete_forms_witness :
  validate Login (mkFieldSet "a" "" "b" "") = Ok /\
  validate Signup (mkFieldSet "a" "e@x.com" "p" "p") = Ok.
Proof.
  split.
  - apply (validate_accepts_complete_forms Login (mkFieldSet "a" "" "b" ""));
      simpl; try discriminate.
  - apply (validate_accepts_complete_forms Signup (mkFieldSet "a" "e@x.com" "p" "p"));
      simpl; try discriminate.
    intros _. split; [discriminate | reflexivity].
Defined.

(** C9. In login mode the verdict depends on the username and the password
    only: two field sets that agree on both get the same verdict, whatever
    their email and confirmation hold, and the handler shows the same thing
    on any two login-mode forms that agree on both. *)
Theorem login_ignores_email_and_confirmation (f1 f2 : FieldSet) :
  username f1 = username f2 ->
  password f1 = password f2 ->
  validate Login f1 = validate Login f2 /\
  emitted (form_in Login f1) = emitted (form_in Login f2).
Proof.
  intros Hu Hp. split.
  - rewrite !validate_rules. unfold rules_in_order. now rewrite Hu, Hp.
  - rewrite !emitted_run, !mode_form_in, !fields_form_in.
    unfold rules_in_order. rewrite Hu, Hp.
    destruct (String.eqb (username f2) ""); [reflexivity|].
    destruct (String.eqb (password f2) ""); reflexivity.
Qed.

Lemma login_ignores_email_and_confirmation_witness :
  validate Login (mkFieldSet "bob" "" "x" "") =
  validate Login (mkFieldSet "bob" "stale@x.com" "x" "mismatch") /\
  emitted (form_in Login (mkFieldSet "bob" "" "x" "")) =
  emitted (form_in Login (mkFieldSet "bob" "stale@x.com" "x" "mismatch")).
Proof.
  apply (login_ignores_email_and_confirmation
           (mkFieldSet "bob" "" "x" "")
           (mkFieldSet "bob" "stale@x.com" "x" "mismatch")); reflexivity.
Defined.

(** C10. The confirmation has no emptiness rule of its own: in signup mode,
    with username, password and email filled in and the confirmation empty,
    the verdict is the mismatch error; and no verdict, on any input, carries
    a message other than the four of the handler. *)
Theorem empty_confirmation_is_a_mismatch (f : FieldSet) :
  username f <> "" ->
  password f <> "" ->
  email f <> "" ->
  confirmPassword f = "" ->
  validate Signup f = Error "Passwords don't match!" /\
  (forall (m' : Mode) (f' : FieldSet), known_verdict (validate m' f')).
Proof.
  intros Hu Hp He Hc. split.
  - rewrite validate_rules. unfold rules_in_order.
    rewrite (eqb_empty_false _ Hu), (eqb_empty_false _ Hp), (eqb_empty_false _ He).
    rewrite Hc, (eqb_empty_false _ Hp). reflexivity.
  - intros m' f'. rewrite validate_rules. apply rules_in_order_known.
Qed.

Lemma empty_confirmation_is_a_mismatch_witness :
  validate Signup (mkFieldSet "bob" "b@x.com" "x" "") =
  Error "Passwords don't match!".
Proof.
  apply (empty_confirmation_is_a_mismatch (mkFieldSet "bob" "b@x.com" "x" ""));
    simpl; try discriminate; reflexivity.
Defined.

Lemma validation_guards_run (self : AuthForm) :
  validation_guards self =
  match rules_in_order (mode self) (fields self) with
  | Error msg => (Returned, self, effects_of (show_error msg self))
  | Ok => (Fallthrough, self, [])
  end.
Proof.
  destruct self as [il [nl np nr nv n] [el ep er ev e] [pl pp pr pv p]
                       [cl cp cr cv c] sb tt].
  unfold rules_in_order, mode, fields, validation_guards.
  unfold seq, if_, call, return_, pass, str_ne. cbn [is_login name_field
    email_field pass_field confirm_pass_field TextField.value username email
    password confirmPassword].
  destruct n as [|a n]; [reflexivity|].
  destruct p as [|b p]; [reflexivity|].
  destruct il; [reflexivity|].
  destruct e as [|d e]; [reflexivity|].
  destruct c as [|b' c]; [reflexivity|].
  cbn. destruct (Ascii.eqb b b'); [|reflexivity].
  destruct (String.eqb p c); reflexivity.
Qed.

Lemma validate_and_submit_split (self : AuthForm) :
  validate_and_submit self = (validation_guards ;; success_lines)%stmt self.
Proof.
  rewrite validate_and_submit_run. unfold submit_run, seq.
  rewrite validation_guards_run.
  destruct (rules_in_order (mode self) (fields self)); [|reflexivity].
  unfold success_lines, let_, call, mode, actionLabel.
  destruct (is_login self); reflexivity.
Qed.



(** ** Toggling *)

Lemma toggle_mode_run (self : AuthForm) :
  toggle_mode self =
  (Fallthrough,
   {| is_login := negb (is_login self);
      name_field := name_field self;
      email_field := TextField.set_visible (is_login self) (email_field self);
      pass_field := pass_field self;
      confirm_pass_field :=
        TextField.set_visible (is_login self) (confirm_pass_field self);
      submit_button :=
        ElevatedButton.set_text
          (if is_login self then "Sign Up" else "Login") (submit_button self);
      toggle_text :=
        Text.set_value
          (if is_login self then "Already have an account? Login!"
           else "New here? Sign Up!") (toggle_text self) |},
   [Update]).
Proof.
  destruct self as [il n e p c sb tt]. destruct il; reflexivity.
Qed.

Lemma toggle_labels_match (self : AuthForm) : labels_match (toggle self).
Proof.
  unfold toggle. rewrite toggle_mode_run.
  destruct self as [il n e p c sb tt]. destruct il; split; reflexivity.
Qed.

Lemma toggle_visible_iff_signup (self : AuthForm) : visible_iff_signup (toggle self).
Proof.
  unfold toggle. rewrite toggle_mode_run.
  destruct self as [il n e p c sb tt].
  destruct il; unfold visible_iff_signup, mode; simpl; split; split; congruence.
Qed.

Lemma set_field_mode (n : FieldName) (v : string) (self : AuthForm) :
  mode (set_field n v self) = mode self.
Proof. destruct n; reflexivity. Qed.

Lemma set_field_visible_iff_signup (n : FieldName) (v : string) (self : AuthForm) :
  visible_iff_signup self -> visible_iff_signup (set_field n v self).
Proof. destruct n; intros H; exact H. Qed.

Lemma set_field_labels_match (n : FieldName) (v : string) (self : AuthForm) :
  labels_match self -> labels_match (set_field n v self).
Proof. destruct n; intros H; exact H. Qed.

Lemma handle_visible_iff_signup (ev : UIEvent) (self : AuthForm) :
  visible_iff_signup self -> visible_iff_signup (handle ev self).
Proof.
  intros H. destruct ev as [n v| |]; simpl.
  - now apply set_field_visible_iff_signup.
  - now rewrite submit_id.
  - apply toggle_visible_iff_signup.
Qed.

Lemma handle_labels_match (ev : UIEvent) (self : AuthForm) :
  labels_match self -> labels_match (handle ev self).
Proof.
  intros H. destruct ev as [n v| |]; simpl.
  - now apply set_field_labels_match.
  - now rewrite submit_id.
  - apply toggle_labels_match.
Qed.

Lemma init_visible_iff_signup : visible_iff_signup AuthForm_init.
Proof. unfold visible_iff_signup; simpl; split; split; discriminate. Qed.

Lemma init_labels_match : labels_match AuthForm_init.
Proof. split; reflexivity. Qed.

Lemma reachable_visible_iff_signup (self : AuthForm) :
  Reachable self -> visible_iff_signup self.
Proof.
  induction 1 as [|ev self _ IH].
  - exact init_visible_iff_signup.
  - now apply handle_visible_iff_signup.
Qed.

Lemma reachable_labels_match (self : AuthForm) :
  Reachable self -> labels_match self.
Proof.
  induction 1 as [|ev self _ IH].
  - exact init_labels_match.
  - now apply handle_labels_match.
Qed.

(** C4. On every form, [toggle] flips the mode, shows email and
    confirm-password exactly when the new mode is signup, writes the submit
    label and the prompt of the new mode, and leaves the four field values
    as they were. *)
Theorem toggle_flips_mode_and_keeps_values (self : AuthForm) :
  mode (toggle self) = match mode self with Login => Signup | Signup => Login end
  /\ TextField.visible (email_field (toggle self)) =
       match mode (toggle self) with Login => false | Signup => true end
  /\ TextField.visible (confirm_pass_field (toggle self)) =
       match mode (toggle self) with Login => false | Signup => true end
  /\ ElevatedButton.text (submit_button (toggle self)) =
       match mode (toggle self) with Login => "Login" | Signup => "Sign Up" end
  /\ Text.value (toggle_text (toggle self)) =
       match mode (toggle self) with
       | Login => "New here? Sign Up!"
       | Signup => "Already have an account? Login!"
       end
  /\ fields (toggle self) = fields self.
Proof.
  unfold toggle. rewrite toggle_mode_run.
  destruct self as [il n e p c sb tt].
  destruct il; repeat split.
Qed.

(** C5. On every form, whether the verdict is an error or [Ok], [submit]
    leaves the form exactly as it was: same mode, same four values, same
    visibility of email and confirm-password, same label and prompt; and it
    does not ask the runtime to redraw. *)
Theorem submit_changes_nothing (self : AuthForm) :
  submit self = self
  /\ mode (submit self) = mode self
  /\ fields (submit self) = fields self
  /\ TextField.visible (email_field (submit self)) =
       TextField.visible (email_field self)
  /\ TextField.visible (confirm_pass_field (submit self)) =
       TextField.visible (confirm_pass_field self)
  /\ ElevatedButton.text (submit_button (submit self)) =
       ElevatedButton.text (submit_button self)
  /\ Text.value (toggle_text (submit self)) = Text.value (toggle_text self)
  /\ ~ In Update (emitted self).
Proof.
  rewrite submit_id. repeat split.
  rewrite emitted_run.
  destruct (rules_in_order (mode self) (fields self)); simpl;
    intros [H|[]]; discriminate H.
Qed.

(** C6. From every state the form can reach, two calls of [toggle] give
    back the mode, the submit label and the prompt it started with (and
    indeed the whole form). *)
Theorem toggle_twice_restores (self : AuthForm) :
  Reachable self ->
  mode (toggle (toggle self)) = mode self
  /\ ElevatedButton.text (submit_button (toggle (toggle self))) =
       ElevatedButton.text (submit_button self)
  /\ Text.value (toggle_text (toggle (toggle self))) =
       Text.value (toggle_text self)
  /\ toggle (toggle self) = self.
Proof.
  intros R.
  destruct (reachable_labels_match self R) as [Hb Ht].
  destruct (reachable_visible_iff_signup self R) as [[He1 He2] [Hc1 Hc2]].
  assert (Hall : toggle (toggle self) = self).
  { unfold toggle. rewrite !toggle_mode_run. unfold state_of. simpl.
    destruct self as [il [nl np nr nv n] [el ep er ev e] [pl pp pr pv p]
                         [cl cp cr cv c] [bt bc bb] [tv tc]].
    unfold mode in *. simpl in *. subst bt tv.
    destruct il, ev, cv; simpl; try reflexivity;
      try (specialize (He1 eq_refl); discriminate He1);
      try (specialize (Hc1 eq_refl); discriminate Hc1);
      try (specialize (He2 eq_refl); discriminate He2);
      try (specialize (Hc2 eq_refl); discriminate Hc2). }
  rewrite Hall. repeat split.
Qed.

Lemma toggle_twice_restores_witness :
  Reachable (set_field Username "bob" (toggle AuthForm_init)) /\
  toggle (toggle (set_field Username "bob" (toggle AuthForm_init))) =
  set_field Username "bob" (toggle AuthForm_init).
Proof.
  assert (R : Reachable (set_field Username "bob" (toggle AuthForm_init))).
  { apply (Reachable_step (onFieldChange Username "bob")).
    apply (Reachable_step onToggleClick). apply Reachable_init. }
  split; [exact R|].
  apply (toggle_twice_restores _ R).
Defined.

(** C7. A new form is in login mode with four empty values and with email
    and confirm-password hidden; "email and confirm-password are visible
    exactly in signup mode" holds there, every event (a field change, a
    submit, a toggle) keeps it, so it holds in every reachable state; and
    one toggle of a new form gives signup mode, the label "Sign Up", the
    prompt "Already have an account? Login!" and both fields visible. *)
Theorem visibility_invariant :
  (mode AuthForm_init = Login
   /\ fields AuthForm_init = mkFieldSet "" "" "" ""
   /\ TextField.visible (email_field AuthForm_init) = false
   /\ TextField.visible (confirm_pass_field AuthForm_init) = false
   /\ visible_iff_signup AuthForm_init)
  /\ (forall (ev : UIEvent) (self : AuthForm),
        visible_iff_signup self -> visible_iff_signup (handle ev self))
  /\ (forall self : AuthForm, Reachable self -> visible_iff_signup self)
  /\ (mode (toggle AuthForm_init) = Signup
      /\ ElevatedButton.text (submit_button (toggle AuthForm_init)) = "Sign Up"
      /\ Text.value (toggle_text (toggle AuthForm_init)) =
           "Already have an account? Login!"
      /\ TextField.visible (email_field (toggle AuthForm_init)) = true
      /\ TextField.visible (confirm_pass_field (toggle AuthForm_init)) = true).
Proof.
  split; [|split; [|split]].
  - repeat split; discriminate.
  - exact handle_visible_iff_signup.
  - exact reachable_visible_iff_signup.
  - repeat split.
Qed.

(** ** Further properties of validation *)

Lemma eqb_empty_true (s : string) : s = "" -> String.eqb s "" = true.
Proof. intros ->. reflexivity. Qed.

Ltac split_empty s :=
  let E := fresh "E" in
  destruct (String.eqb s "") eqn:E;
  [apply String.eqb_eq in E | apply String.eqb_neq in E].

(** X1. A form is accepted exactly when the username and the password are
    filled in and, in signup mode, the email is filled in too and the
    password equals its confirmation. *)
Theorem validate_Ok_iff (m : Mode) (f : FieldSet) :
  validate m f = Ok <->
  username f <> "" /\ password f <> "" /\
  (m = Signup -> email f <> "" /\ password f = confirmPassword f).
Proof.
  rewrite validate_rules. unfold rules_in_order.
  split_empty (username f); [split; [discriminate | tauto]|].
  split_empty (password f); [split; [discriminate | tauto]|].
  destruct m.
  - split; [|reflexivity]. intros _. repeat split; try assumption; discriminate.
  - split_empty (email f).
    + split; [discriminate|]. intros (_ & _ & H). destruct (H eq_refl); contradiction.
    + destruct (String.eqb (password f) (confirmPassword f)) eqn:Ec; simpl.
      * apply String.eqb_eq in Ec. split; [|reflexivity]. intros _. tauto.
      * apply String.eqb_neq in Ec. split; [discriminate|].
        intros (_ & _ & H). destruct (H eq_refl); contradiction.
Qed.

(** X2. Each error names its cause: the username error is shown exactly
    when the username is empty; the password error exactly when the username
    is filled in and the password empty; the email error exactly in signup
    mode with username and password filled in and the email empty; the
    mismatch error exactly in signup mode with username, password and email
    filled in and a confirmation that differs from the password. *)
Theorem validate_Error_iff (m : Mode) (f : FieldSet) :
  (validate m f = Error "Please enter username" <-> username f = "")
  /\ (validate m f = Error "Please enter password" <->
        username f <> "" /\ password f = "")
  /\ (validate m f = Error "Please enter email" <->
        m = Signup /\ username f <> "" /\ password f <> "" /\ email f = "")
  /\ (validate m f = Error "Passwords don't match!" <->
        m = Signup /\ username f <> "" /\ password f <> "" /\ email f <> ""
        /\ password f <> confirmPassword f).
Proof.
  rewrite validate_rules. unfold rules_in_order.
  split_empty (username f).
  { repeat split; try discriminate; try tauto. }
  split_empty (password f).
  { repeat split; try discriminate; try tauto. }
  destruct m.
  { repeat split; try discriminate; try tauto;
      intros H; decompose [and] H; try discriminate; contradiction. }
  split_empty (email f).
  { repeat split; try discriminate; try tauto. }
  destruct (String.eqb (password f) (confirmPassword f)) eqn:Ec; simpl.
  - apply String.eqb_eq in Ec.
    repeat split; try discriminate; try tauto.
  - apply String.eqb_neq in Ec.
    repeat split; try discriminate; try tauto.
Qed.

(** X3. Signup is the stricter mode: an error of login mode is the error of
    signup mode on the same field set. *)
Theorem login_error_is_signup_error (f : FieldSet) (msg : string) :
  validate Login f = Error msg -> validate Signup f = Error msg.
Proof.
  rewrite !validate_rules. unfold rules_in_order.
  destruct (String.eqb (username f) ""); [tauto|].
  destruct (String.eqb (password f) ""); [tauto|].
  discriminate.
Qed.

Lemma login_error_is_signup_error_witness :
  validate Login (mkFieldSet "bob" "b@x.com" "" "") = Error "Please enter password"
  /\ validate Signup (mkFieldSet "bob" "b@x.com" "" "") = Error "Please enter password".
Proof.
  split; [reflexivity|].
  apply (login_error_is_signup_error (mkFieldSet "bob" "b@x.com" "" "")).
  reflexivity.
Defined.

Lemma rules_in_order_signup_Ok (f : FieldSet) :
  rules_in_order Signup f = Ok ->
  username f <> "" /\ password f <> "" /\ email f <> "" /\
  password f = confirmPassword f.
Proof.
  unfold rules_in_order.
  split_empty (username f); [discriminate|].
  split_empty (password f); [discriminate|].
  split_empty (email f); [discriminate|].
  destruct (String.eqb (password f) (confirmPassword f)) eqn:Ec; [|discriminate].
  apply String.eqb_eq in Ec. tauto.
Qed.

(** X4. A field set accepted in signup mode has all four values filled in,
    the confirmation included although no rule asks for it, and is accepted
    in login mode as well. *)
Theorem signup_accepted_is_complete (f : FieldSet) :
  validate Signup f = Ok ->
  username f <> "" /\ email f <> "" /\ password f <> "" /\
  confirmPassword f <> "" /\ validate Login f = Ok.
Proof.
  intros H. rewrite validate_rules in H.
  apply rules_in_order_signup_Ok in H.
  destruct H as (Hu & Hp & He & Hc).
  repeat split; try assumption.
  - rewrite <- Hc. exact Hp.
  - rewrite validate_rules. unfold rules_in_order.
    now rewrite (eqb_empty_false _ Hu), (eqb_empty_false _ Hp).
Qed.

Lemma signup_accepted_is_complete_witness :
  validate Signup (mkFieldSet "a" "e@x.com" "p" "p") = Ok
  /\ confirmPassword (mkFieldSet "a" "e@x.com" "p" "p") <> ""
  /\ validate Login (mkFieldSet "a" "e@x.com" "p" "p") = Ok.
Proof.
  split; [reflexivity|].
  destruct (signup_accepted_is_complete (mkFieldSet "a" "e@x.com" "p" "p") eq_refl)
    as (_ & _ & _ & Hc & Hl).
  split; [exact Hc | exact Hl].
Defined.

(** ** Further properties of toggling and of the reachable states *)

Lemma mode_toggle (self : AuthForm) : mode (toggle self) = other_mode (mode self).
Proof.
  unfold toggle. rewrite toggle_mode_run.
  destruct self as [il n e p c sb tt]. destruct il; reflexivity.
Qed.

Lemma fields_toggle (self : AuthForm) : fields (toggle self) = fields self.
Proof.
  unfold toggle. rewrite toggle_mode_run.
  destruct self as [il n e p c sb tt]. reflexivity.
Qed.

Lemma toggle_toggle_id (self : AuthForm) :
  labels_match self -> visible_iff_signup self -> toggle (toggle self) = self.
Proof.
  intros [Hb Ht] [[He1 He2] [Hc1 Hc2]].
  unfold toggle. rewrite !toggle_mode_run. unfold state_of. simpl.
  destruct self as [il [nl np nr nv n] [el ep er ev e] [pl pp pr pv p]
                       [cl cp cr cv c] [bt bc bb] [tv tc]].
  unfold mode in *. simpl in *. subst bt tv.
  destruct il; simpl.
  - destruct ev; [specialize (He1 eq_refl); discriminate He1|].
    destruct cv; [specialize (Hc1 eq_refl); discriminate Hc1|].
    reflexivity.
  - rewrite (He2 eq_refl), (Hc2 eq_refl). reflexivity.
Qed.

Lemma form_in_reachable (m : Mode) (f : FieldSet) : Reachable (form_in m f).
Proof.
  unfold form_in, set_fields.
  apply (Reachable_step (onFieldChange ConfirmPassword (confirmPassword f))).
  apply (Reachable_step (onFieldChange Password (password f))).
  apply (Reachable_step (onFieldChange Email (email f))).
  apply (Reachable_step (onFieldChange Username (username f))).
  destruct m.
  - apply Reachable_init.
  - apply (Reachable_step onToggleClick). apply Reachable_init.
Qed.

Lemma reachable_form_in (self : AuthForm) :
  Reachable self -> self = form_in (mode self) (fields self).
Proof.
  induction 1 as [|ev self _ IH].
  - reflexivity.
  - remember (mode self) as m eqn:Hm. remember (fields self) as f eqn:Hf.
    clear Hm Hf. subst self.
    destruct ev as [n v| |].
    + destruct m, f, n; reflexivity.
    + simpl. rewrite submit_id. now rewrite mode_form_in, fields_form_in.
    + destruct m, f; reflexivity.
Qed.


(** X6. Toggling changes the rules, not the data: the verdict of a submit
    right after a toggle is that of the other mode on the values the form
    already held, so values typed in signup mode are judged by the login
    rules after a toggle, and back. *)
Theorem verdict_after_toggle (self : AuthForm) :
  validation_result (toggle self) = validate (other_mode (mode self)) (fields self)
  /\ validation_result (toggle (toggle self)) = validate (mode self) (fields self).
Proof.
  split.
  - rewrite validation_result_rules, mode_toggle, fields_toggle.
    symmetry. apply validate_rules.
  - rewrite validation_result_rules, !mode_toggle, !fields_toggle.
    rewrite validate_rules. destruct (mode self); reflexivity.
Qed.

(** X7. [toggle_mode] runs to its end, asks the runtime for one redraw and
    shows no snack bar; it leaves the username and password fields wholly
    alone, keeps label, masking and value of the email and confirmation
    fields, and keeps the colours of the button and of the prompt. *)
Theorem toggle_mode_frame (self : AuthForm) :
  flow_of (toggle_mode self) = Fallthrough
  /\ effects_of (toggle_mode self) = [Update]
  /\ name_field (toggle self) = name_field self
  /\ pass_field (toggle self) = pass_field self
  /\ email_field (toggle self) =
       TextField.set_visible (is_login self) (email_field self)
  /\ confirm_pass_field (toggle self) =
       TextField.set_visible (is_login self) (confirm_pass_field self)
  /\ ElevatedButton.color (submit_button (toggle self)) =
       ElevatedButton.color (submit_button self)
  /\ ElevatedButton.bgcolor (submit_button (toggle self)) =
       ElevatedButton.bgcolor (submit_button self)
  /\ Text.color (toggle_text (toggle self)) = Text.color (toggle_text self).
Proof.
  unfold toggle. rewrite toggle_mode_run. repeat split.
Qed.

(** X8. In every reachable state the password and its confirmation are
    masked and can be revealed, the username and the email are not masked,
    and the username and password fields are visible. *)
Theorem reachable_masking (self : AuthForm) :
  Reachable self ->
  TextField.password (pass_field self) = true
  /\ TextField.password (confirm_pass_field self) = true
  /\ TextField.can_reveal_password (pass_field self) = true
  /\ TextField.can_reveal_password (confirm_pass_field self) = true
  /\ TextField.password (name_field self) = false
  /\ TextField.password (email_field self) = false
  /\ TextField.visible (name_field self) = true
  /\ TextField.visible (pass_field self) = true.
Proof.
  intros R. rewrite (reachable_form_in self R).
  destruct (mode self), (fields self); repeat split.
Qed.

Lemma reachable_masking_witness :
  Reachable (toggle (set_field Password "x" AuthForm_init))
  /\ TextField.password (pass_field (toggle (set_field Password "x" AuthForm_init)))
     = true.
Proof.
  assert (R : Reachable (toggle (set_field Password "x" AuthForm_init))).
  { apply (Reachable_step onToggleClick).
    apply (Reachable_step (onFieldChange Password "x")). apply Reachable_init. }
  split; [exact R|].
  apply (reachable_masking _ R).
Defined.

(** ** The screen *)

Lemma state_of_call (s : Stmt) (self : AuthForm) :
  state_of (call s self) = state_of (s self).
Proof. unfold call, state_of. destruct (s self) as [[fl s1] t1]. reflexivity. Qed.

Lemma effects_of_call (s : Stmt) (self : AuthForm) :
  effects_of (call s self) = effects_of (s self).
Proof. unfold call, effects_of. destruct (s self) as [[fl s1] t1]. reflexivity. Qed.

Lemma screen_form_in (m : Mode) (f : FieldSet) : screen (form_in m f) = layout m.
Proof. destruct m, f; reflexivity. Qed.

(** X9. In every reachable state the user sees the controls of the current
    mode, top to bottom: heading, username, password, "Login" and the signup
    prompt in login mode; heading, username, email, password, confirmation,
    "Sign Up" and the login prompt in signup mode.  A click on the prompt
    swaps the two screens; a click on any other control of the tree, the
    submit button included, leaves the screen as it is. *)
Theorem screen_follows_mode (self : AuthForm) :
  Reachable self ->
  screen self = layout (mode self)
  /\ (forall c : Control,
        In c (build self) ->
        screen (state_of (click c self)) =
        match c with
        | Prompt _ _ => layout (other_mode (mode self))
        | _ => layout (mode self)
        end).
Proof.
  intros R. pose proof (reachable_form_in self R) as E.
  remember (mode self) as m eqn:Hm. remember (fields self) as f eqn:Hf.
  clear Hm Hf R. subst self.
  split; [apply screen_form_in|].
  intros c Hc. unfold build, form_container in Hc. cbn [In] in Hc.
  destruct Hc as [<-|[<-|[<-|[<-|[<-|[<-|[<-|[]]]]]]]];
    try apply screen_form_in.
  - unfold click. rewrite state_of_call.
    change (state_of (validate_and_submit (form_in m f))) with (submit (form_in m f)).
    rewrite submit_id. apply screen_form_in.
  - unfold click. rewrite state_of_call.
    destruct m, f; reflexivity.
Qed.

Lemma screen_follows_mode_witness :
  Reachable (toggle (set_field Email "b@x.com" AuthForm_init))
  /\ screen (toggle (set_field Email "b@x.com" AuthForm_init)) = layout Signup.
Proof.
  assert (R : Reachable (toggle (set_field Email "b@x.com" AuthForm_init))).
  { apply (Reachable_step onToggleClick).
    apply (Reachable_step (onFieldChange Email "b@x.com")). apply Reachable_init. }
  split; [exact R|].
  apply (screen_follows_mode _ R).
Defined.

(** ** Runs of events *)

Lemma react_state (ev : UIEvent) (self : AuthForm) :
  state_of (react ev self) = handle ev self.
Proof. destruct ev; simpl; [reflexivity | apply state_of_call | apply state_of_call]. Qed.

Lemma run_events_cons (ev : UIEvent) (rest : list UIEvent) (self : AuthForm) :
  run_events (ev :: rest) self =
  (fst (run_events rest (handle ev self)),
   effects_of (react ev self) ++ snd (run_events rest (handle ev self))).
Proof.
  simpl. rewrite <- react_state. unfold state_of, effects_of.
  destruct (react ev self) as [[fl s1] t1]. simpl.
  destruct (run_events rest s1). reflexivity.
Qed.

Lemma is_login_toggle (self : AuthForm) :
  is_login (toggle self) = negb (is_login self).
Proof. unfold toggle. rewrite toggle_mode_run. reflexivity. Qed.

Lemma is_login_set_field (n : FieldName) (v : string) (self : AuthForm) :
  is_login (set_field n v self) = is_login self.
Proof. destruct n; reflexivity. Qed.

(** X10. After any sequence of events, from any form, the mode is the
    starting mode when the prompt was clicked an even number of times and
    the other mode when it was clicked an odd number of times; typing and
    submit clicks, failed or accepted, never change it. *)
Theorem mode_is_toggle_parity (evs : list UIEvent) (self : AuthForm) :
  is_login (fst (run_events evs self)) =
  if Nat.even (length (filter is_toggle_click evs))
  then is_login self
  else negb (is_login self).
Proof.
  revert self. induction evs as [|ev rest IH]; intros self.
  - reflexivity.
  - rewrite run_events_cons. cbn [fst]. rewrite IH.
    destruct ev as [n v| |]; cbn [filter is_toggle_click handle].
    + now rewrite is_login_set_field.
    + now rewrite submit_id.
    + cbn [length]. rewrite Nat.even_succ, <- Nat.negb_even, is_login_toggle.
      destruct (Nat.even (length (filter is_toggle_click rest)));
        destruct (is_login self); reflexivity.
Qed.

(** X11. Over any sequence of events the runtime is called once per click
    and not otherwise: one snack bar for each submit click, one redraw for
    each click on the prompt. *)
Theorem one_runtime_call_per_click (evs : list UIEvent) (self : AuthForm) :
  length (filter is_snack_bar (snd (run_events evs self))) =
    length (filter is_submit_click evs)
  /\ length (filter is_update (snd (run_events evs self))) =
       length (filter is_toggle_click evs)
  /\ length (snd (run_events evs self)) =
       length (filter is_submit_click evs) + length (filter is_toggle_click evs).
Proof.
  revert self. induction evs as [|ev rest IH]; intros self.
  - repeat split.
  - rewrite run_events_cons. cbn [snd].
    destruct (IH (handle ev self)) as (H1 & H2 & H3).
    rewrite !filter_app, !length_app, H1, H2, H3.
    destruct ev as [n v| |]; cbn [react filter is_submit_click is_toggle_click].
    + repeat split.
    + rewrite effects_of_call. fold (emitted self). rewrite emitted_run.
      destruct (rules_in_order (mode self) (fields self)); simpl; repeat split; lia.
    + rewrite effects_of_call, toggle_mode_run. simpl. repeat split; lia.
Qed.

(** X12. Submit clicks leave no mark on the form: dropping every submit
    click from a sequence of events gives the same final form. *)
Theorem submit_clicks_can_be_dropped (evs : list UIEvent) (self : AuthForm) :
  fst (run_events evs self) =
  fst (run_events (filter (fun ev => negb (is_submit_click ev)) evs) self).
Proof.
  revert self. induction evs as [|ev rest IH]; intros self.
  - reflexivity.
  - destruct ev as [n v| |]; cbn [filter is_submit_click negb];
      rewrite ?run_events_cons; cbn [fst handle].
    + apply IH.
    + rewrite submit_id. apply IH.
    + apply IH.
Qed.

Lemma fields_set_field (n : FieldName) (v : string) (s1 s2 : AuthForm) :
  fields s1 = fields s2 -> fields (set_field n v s1) = fields (set_field n v s2).
Proof.
  unfold fields. intros H. injection H as Hu He Hp Hc.
  destruct n; simpl; congruence.
Qed.

Lemma fields_run_typing (evs : list UIEvent) (s1 s2 : AuthForm) :
  fields s1 = fields s2 ->
  fields (fst (run_events evs s1)) =
  fields (fst (run_events (filter is_field_change evs) s2)).
Proof.
  revert s1 s2. induction evs as [|ev rest IH]; intros s1 s2 H.
  - exact H.
  - destruct ev as [n v| |]; cbn [filter is_field_change];
      rewrite ?run_events_cons; cbn [fst handle].
    + apply IH. now apply fields_set_field.
    + apply IH. now rewrite submit_id.
    + apply IH. now rewrite fields_toggle.
Qed.

(** X13. The four values follow the typing alone: after any sequence of
    events they are what the field changes of the sequence, in their order,
    leave behind; no click, on the button or on the prompt, clears or
    changes a value, also not of a field the click hides. *)
Theorem values_follow_typing_only (evs : list UIEvent) (self : AuthForm) :
  fields (fst (run_events evs self)) =
  fields (fst (run_events (filter is_field_change evs) self)).
Proof. apply fields_run_typing. reflexivity. Qed.

(** ** Notifications *)

(** X14. The two kinds of snack bar cannot be confused: what [show_error]
    sends to the runtime reads back as the error with its message and what
    [show_success] sends reads back as the success with its message, the
    two differ for every pair of messages (the same text included), each
    keeps apart different messages, and neither touches the form. *)
Theorem notifications_round_trip (m1 m2 : string) (self : AuthForm) :
  map shown (effects_of (show_error m1 self)) = [Some (Notification.Error m1)]
  /\ map shown (effects_of (show_success m2 self)) = [Some (Notification.Success m2)]
  /\ effects_of (show_error m1 self) <> effects_of (show_success m2 self)
  /\ (effects_of (show_error m1 self) = effects_of (show_error m2 self) <-> m1 = m2)
  /\ (effects_of (show_success m1 self) = effects_of (show_success m2 self)
      <-> m1 = m2)
  /\ state_of (show_error m1 self) = self
  /\ state_of (show_success m2 self) = self.
Proof.
  split; [reflexivity|]. split; [reflexivity|].
  split; [intros H; discriminate H|].
  split; [split; [intros H; injection H as H; exact H | intros ->; reflexivity]|].
  split; [split; [intros H; injection H as H; exact H | intros ->; reflexivity]|].
  split; reflexivity.
Qed.

(** ** The application *)

(** X15. [AuthApp.main] writes the same window settings whatever page it is
    given, keeps the controls the page already had, in place, and adds
    exactly one control after them: a new form, which shows the login
    screen and answers a submit click with the username error. *)
Theorem main_adds_one_login_form (app : AuthApp.t) (p : Page.t) :
  (forall q : Page.t,
     AuthApp.main app q =
     Page.mk (Page.title (AuthApp.main app p))
             (Page.window_width (AuthApp.main app p))
             (Page.window_height (AuthApp.main app p))
             (Page.window_resizable (AuthApp.main app p))
             (Page.bgcolor (AuthApp.main app p))
             (Page.vertical_alignment (AuthApp.main app p))
             (Page.horizontal_alignment (AuthApp.main app p))
             (Page.theme_mode (AuthApp.main app p))
             (Page.padding (AuthApp.main app p))
             (Page.controls (AuthApp.main app q)))
  /\ length (Page.controls (AuthApp.main app p)) = S (length (Page.controls p))
  /\ firstn (length (Page.controls p)) (Page.controls (AuthApp.main app p)) =
       Page.controls p
  /\ (forall form : AuthForm,
        nth_error (Page.controls (AuthApp.main app p)) (length (Page.controls p))
          = Some form ->
        screen form = layout Login
        /\ validation_result form = Error "Please enter username").
Proof.
  split; [reflexivity|]. split; [|split].
  - simpl. rewrite length_app. simpl. lia.
  - simpl. rewrite firstn_app, Nat.sub_diag, firstn_all. simpl.
    apply app_nil_r.
  - intros form H. simpl in H.
    rewrite nth_error_app2 in H by lia. rewrite Nat.sub_diag in H.
    simpl in H. injection H as <-. split; reflexivity.
Qed.
